(** * Scylla Cloud REST API client: [internal/apiClient/client.go]

    A shallow embedding of the Go package [apiClient] and the properties of
    its request pipeline: request construction, status check, decoding,
    identity bootstrap and the per-item unwrapping done by [ListClusters].

    The Go standard library is the boundary of the model.  What the package
    calls but does not define ([url] parsing inside [http.NewRequest], the
    round trip of [Do] on an [http.Client], [Decode] on a [json.Decoder] and the
    [%v] verb of [fmt]) is a variable of [Section ApiClient]; everything the
    package itself computes is a definition. *)

From Stdlib Require Import ZArith String Ascii DecimalString DecimalZ DecimalPos Lia.
From stdpp Require Import base list strings.

#[local] Set Warnings "-register-all".

Local Open Scope string_scope.
Local Open Scope list_scope.
Local Open Scope Z_scope.

(** ** Go values *)

(** A slice is either [nil] or a backing sequence; [len(nil) = 0] and a
    [range] over [nil] runs no iteration. *)
Definition slice (T : Type) : Type := option (list T).

Definition elems {T : Type} (s : slice T) : list T :=
  match s with
  | Some l => l
  | None => []
  end.

Definition len {T : Type} (s : slice T) : nat := length (elems s).

(** The dynamic values [encoding/json] stores into an [interface{}]
    destination of a decoder on which [UseNumber] was called. *)
Inductive any : Type :=
| any_nil
| any_bool (b : bool)
| any_Number (literal : string)
| any_string (s : string)
| any_slice (l : list any)
| any_map (m : list (string * any)).

(** [x != nil] on an [interface{}]. *)
Definition not_nil (x : any) : bool :=
  match x with
  | any_nil => false
  | _ => true
  end.

(** An error of the [net/http] and [net/url] packages; [ne_timeout] is what
    its [Timeout()] method answers. *)
Record netError : Type := mk_netError {
  ne_text : string;
  ne_timeout : bool
}.

(** Go [error] values, by the package that allocates them.  [errors.New]
    returns a fresh [*errors.errorString] on every call, so no value handed
    out by a library is identical to one built by this package. *)
Inductive error : Type :=
| errors_New (text : string)
| net_error (e : netError)
| io_error (text : string)
| json_error (text : string).

Definition Error (e : error) : string :=
  match e with
  | errors_New text => text
  | net_error e => ne_text e
  | io_error text => text
  | json_error text => text
  end.

(** The verb [%d] of [fmt.Sprintf] at an integer. *)
Definition Sprintf_d (z : Z) : string := NilZero.string_of_int (Z.to_int z).

(** [time.Duration] counts nanoseconds. *)
Definition Second : Z := 1000000000.

(** ** net/http *)

Module http.

(** [http.Client]; [Transport = None] is the nil round tripper, for which
    the library uses [http.DefaultTransport], and [Timeout = 0] means no
    time limit. *)
Record Client : Type := mkClient {
  Transport : option nat;
  Timeout : Z
}.

(** [&http.Client{}] *)
Definition zero : Client := {| Transport := None; Timeout := 0 |}.

Record Request : Type := mkRequest {
  Method : string;
  URL : string;
  Header : list (string * string)
}.

(** [req.Header.Add(key, value)] appends to the values of [key]. *)
Definition Header_Add (req : Request) (key value : string) : Request :=
  {| Method := Method req; URL := URL req;
     Header := Header req ++ [(key, value)] |}.

(** The body of a response is a reader: the bytes it delivers and the
    error, if any, that ends the read. *)
Record Reader : Type := mkReader {
  content : string;
  read_err : option string
}.

Record Response : Type := mkResponse {
  StatusCode : Z;
  Body : Reader
}.

End http.

(** [ioutil.ReadAll] *)
Definition ioutil_ReadAll (r : http.Reader) : string * option error :=
  (http.content r, io_error <$> http.read_err r).

(** ** encoding/json *)

Record Decoder : Type := mkDecoder {
  input : string;
  useNumber : bool
}.

(** [json.NewDecoder(bytes.NewReader(body))] *)
Definition json_NewDecoder (body : string) : Decoder :=
  {| input := body; useNumber := false |}.

(** [d.UseNumber()] *)
Definition UseNumber (d : Decoder) : Decoder :=
  {| input := input d; useNumber := true |}.

(** [d.Decode(&dest)] for a destination of type [T]: the destination after
    the call and the text of the error, if the call fails.  A failing decode
    may already have written part of the destination. *)
Class Unmarshal (T : Type) : Type :=
  Decode : Decoder -> T -> T * option string.

(** ** The package's types *)

Definition DefaultTimeout : Z := 60 * Second.

Definition DefaultEndpoint : string := "https://cloud.scylladb.com/api/v0".

(** [sync.Mutex], held by pointer in [Client]. *)
Record sync_Mutex : Type := mk_Mutex { locked : bool }.

Record Client : Type := mk_Client {
  Client_token : string;
  Client_accountId : Z;
  Client_endpoint : string;
  Client_Client : http.Client;
  Client_timeDeltaMutex : sync_Mutex;
  Client_timeDeltaDone : bool;
  Client_timeDelta : Z;
  Client_Timeout : Z
}.

Definition set_accountId (c : Client) (id : Z) : Client :=
  {| Client_token := Client_token c;
     Client_accountId := id;
     Client_endpoint := Client_endpoint c;
     Client_Client := Client_Client c;
     Client_timeDeltaMutex := Client_timeDeltaMutex c;
     Client_timeDeltaDone := Client_timeDeltaDone c;
     Client_timeDelta := Client_timeDelta c;
     Client_Timeout := Client_Timeout c |}.

Record UserAccount : Type := mk_UserAccount {
  UserAccount_UserId : Z;
  UserAccount_AccountId : Z;
  UserAccount_Name : string;
  UserAccount_OwnerUserId : Z;
  UserAccount_AccountStatus : string;
  UserAccount_Role : string;
  UserAccount_UserAccountStatus : string
}.

Definition UserAccount_zero : UserAccount :=
  mk_UserAccount 0 0 "" 0 "" "" "".

Record CloudProvider : Type := mk_CloudProvider {
  CloudProvider_Id : Z;
  CloudProvider_Name : string;
  CloudProvider_RootAccountId : string
}.

Record CloudProviderRegion : Type := mk_CloudProviderRegion {
  CloudProviderRegion_Id : Z;
  CloudProviderRegion_CloudProviderId : Z;
  CloudProviderRegion_Name : string;
  CloudProviderRegion_FullName : string;
  CloudProviderRegion_ExternalId : string;
  CloudProviderRegion_MultiRegionExternalId : string;
  CloudProviderRegion_DcName : string;
  CloudProviderRegion_BackupStorageGbCost : string;
  CloudProviderRegion_TrafficSameRegionInGbCost : string;
  CloudProviderRegion_TrafficSameRegionOutGbCost : string;
  CloudProviderRegion_TrafficCrossRegionOutGbCost : string;
  CloudProviderRegion_TrafficInternetOutGbCost : string;
  CloudProviderRegion_Continent : string
}.

Record DataCenter : Type := mk_DataCenter {
  DataCenter_Id : Z;
  DataCenter_ClusterId : Z;
  DataCenter_CloudProviderId : Z;
  DataCenter_CloudProviderRegionId : Z;
  DataCenter_ReplicationFactor : Z;
  DataCenter_Ipv4Cidr : string;
  DataCenter_AccountCloudProviderCredentialId : Z;
  DataCenter_Status : string;
  DataCenter_Name : string;
  DataCenter_ManagementNetwork : string;
  DataCenter_InstanceTypeId : Z;
  DataCenter_ClientConnection : slice string
}.

Record FreeTier : Type := mk_FreeTier {
  FreeTier_ExpirationDate : string;
  FreeTier_ExpirationSeconds : Z;
  FreeTier_CreationTime : string
}.

Record Cluster : Type := mk_Cluster {
  Cluster_Id : Z;
  Cluster_Name : string;
  Cluster_ClusterNameOnConfigFile : string;
  Cluster_Status : string;
  Cluster_CloudProviderId : Z;
  Cluster_ReplicationFactor : Z;
  Cluster_BroadcastType : string;
  Cluster_ScyllaVersionId : Z;
  Cluster_ScyllaVersion : string;
  Cluster_Dc : slice DataCenter;
  Cluster_GrafanaUrl : string;
  Cluster_GrafanaRootUrl : string;
  Cluster_BackofficeGrafanaUrl : string;
  Cluster_BackofficePrometheusUrl : string;
  Cluster_BackofficeAlertManagerUrl : string;
  Cluster_FreeTier : FreeTier;
  Cluster_EncryptionMode : string;
  Cluster_UserApiInterface : string;
  Cluster_PricingModel : Z;
  Cluster_MaxAllowedCidrRange : Z;
  Cluster_CreatedAt : string;
  Cluster_Dns : bool;
  Cluster_PromProxyEnabled : bool
}.

Definition Cluster_zero : Cluster :=
  {| Cluster_Id := 0; Cluster_Name := ""; Cluster_ClusterNameOnConfigFile := "";
     Cluster_Status := ""; Cluster_CloudProviderId := 0;
     Cluster_ReplicationFactor := 0; Cluster_BroadcastType := "";
     Cluster_ScyllaVersionId := 0; Cluster_ScyllaVersion := "";
     Cluster_Dc := None; Cluster_GrafanaUrl := ""; Cluster_GrafanaRootUrl := "";
     Cluster_BackofficeGrafanaUrl := ""; Cluster_BackofficePrometheusUrl := "";
     Cluster_BackofficeAlertManagerUrl := "";
     Cluster_FreeTier := mk_FreeTier "" 0 "";
     Cluster_EncryptionMode := ""; Cluster_UserApiInterface := "";
     Cluster_PricingModel := 0; Cluster_MaxAllowedCidrRange := 0;
     Cluster_CreatedAt := ""; Cluster_Dns := false;
     Cluster_PromProxyEnabled := false |}.

(** The envelope type declared inside [ListClusters]. *)
Record Item : Type := mk_Item {
  Item_Value : Cluster;
  Item_Error : any
}.

(** ** The world: the calls that reached the network *)

(** One entry per [Do]: the HTTP client that ran the request and the
    request. *)
Definition Exchange : Type := http.Client * http.Request.

Definition World : Type := list Exchange.

(** A computation that may talk to the network: it reads the calls made so
    far and returns its result with the calls made since. *)
Definition IO (A : Type) : Type := World -> A * World.

#[global] Instance IO_ret : MRet IO := fun A a w => (a, w).

#[global] Instance IO_bind : MBind IO :=
  fun A B k m w => let '(a, w') := m w in k a w'.

(** ** Test doubles

    A scripted network, a decoder that knows a handful of payloads and a
    rendering of [%v], used to run the package on concrete inputs. *)

Module Mock.

(** [url.Parse] refuses a URL that holds an ASCII control character. *)
Definition is_CTL (a : ascii) : bool :=
  let n := nat_of_ascii a in (n <? 32)%nat || (n =? 127)%nat.

Fixpoint has_CTL (s : string) : bool :=
  match s with
  | EmptyString => false
  | String a s => is_CTL a || has_CTL s
  end.

Definition url_Parse (url : string) : option netError :=
  if has_CTL url
  then Some {| ne_text := "net/url: invalid control character in URL";
               ne_timeout := false |}
  else None.

(** One resource of the scripted server: its URL, the time in nanoseconds
    it takes to answer, and the answer. *)
Record Route : Type := mkRoute {
  route_url : string;
  route_latency : Z;
  route_answer : http.Response + netError
}.

Definition ok (code : Z) (body : string) : http.Response + netError :=
  inl {| http.StatusCode := code;
         http.Body := {| http.content := body; http.read_err := None |} |}.

Definition deadline_exceeded : netError :=
  {| ne_text := "context deadline exceeded (Client.Timeout exceeded while awaiting headers)";
     ne_timeout := true |}.

(** An HTTP client with a positive [Timeout] gives up on an answer that
    takes longer; one with [Timeout = 0] waits. *)
Definition RoundTrip (routes : list Route)
    (w : World) (hc : http.Client) (req : http.Request)
  : http.Response + netError :=
  match find (fun r => String.eqb (route_url r) (http.URL req)) routes with
  | None => ok 404 "404 page not found"
  | Some r =>
    if (0 <? http.Timeout hc) && (http.Timeout hc <? route_latency r)
    then inr deadline_exceeded
    else route_answer r
  end.

(** [%v]: strings and numbers print bare, slices and maps in brackets with
    their elements separated by spaces. *)
Fixpoint Sprintf_v (x : any) : string :=
  match x with
  | any_nil => "<nil>"
  | any_bool true => "true"
  | any_bool false => "false"
  | any_Number literal => literal
  | any_string s => s
  | any_slice l =>
    "[" +:+ String.concat " " (map Sprintf_v l) +:+ "]"
  | any_map m =>
    "map[" +:+ String.concat " " (map (fun kv => fst kv +:+ ":" +:+ Sprintf_v (snd kv)) m)
    +:+ "]"
  end.

Definition dq : string := String (ascii_of_nat 34) EmptyString.

Definition syntax_error : string :=
  "invalid character '<' looking for beginning of value".

(** [{"AccountID":42}] *)
Definition account_json : string := "{" +:+ dq +:+ "AccountID" +:+ dq +:+ ":42}".

Definition account_42 : UserAccount := mk_UserAccount 0 42 "" 0 "" "" "".

Definition Decode_UserAccount : Unmarshal UserAccount :=
  fun d dest =>
    if String.eqb (input d) account_json then (account_42, None)
    else (dest, Some syntax_error).

(** [[{"ID":1},{"ID":2}]] and a payload whose second element has a string
    where the identifier should be. *)
Definition providers_json : string :=
  "[{" +:+ dq +:+ "ID" +:+ dq +:+ ":1},{" +:+ dq +:+ "ID" +:+ dq +:+ ":2}]".

Definition providers_mistyped_json : string :=
  "[{" +:+ dq +:+ "ID" +:+ dq +:+ ":1},{" +:+ dq +:+ "ID" +:+ dq +:+ ":"
  +:+ dq +:+ "x" +:+ dq +:+ "}]".

Definition provider (id : Z) : CloudProvider := mk_CloudProvider id "" "".

Definition Decode_CloudProviders : Unmarshal (slice CloudProvider) :=
  fun d dest =>
    if String.eqb (input d) providers_json
    then (Some [provider 1; provider 2], None)
    else if String.eqb (input d) providers_mistyped_json
    then (Some [provider 1; provider 0],
          Some "json: cannot unmarshal string into Go struct field CloudProvider.ID of type int64")
    else (dest, Some syntax_error).

Definition region (id : Z) : CloudProviderRegion :=
  mk_CloudProviderRegion id 0 "" "" "" "" "" "" "" "" "" "" "".

(** [[{"ID":7}]] *)
Definition regions_json : string := "[{" +:+ dq +:+ "ID" +:+ dq +:+ ":7}]".

Definition Decode_CloudProviderRegions : Unmarshal (slice CloudProviderRegion) :=
  fun d dest =>
    if String.eqb (input d) regions_json then (Some [region 7], None)
    else (dest, Some syntax_error).

Definition cluster (id : Z) : Cluster :=
  {| Cluster_Id := id; Cluster_Name := ""; Cluster_ClusterNameOnConfigFile := "";
     Cluster_Status := "ACTIVE"; Cluster_CloudProviderId := 1;
     Cluster_ReplicationFactor := 3; Cluster_BroadcastType := "";
     Cluster_ScyllaVersionId := 0; Cluster_ScyllaVersion := "";
     Cluster_Dc := None; Cluster_GrafanaUrl := ""; Cluster_GrafanaRootUrl := "";
     Cluster_BackofficeGrafanaUrl := ""; Cluster_BackofficePrometheusUrl := "";
     Cluster_BackofficeAlertManagerUrl := "";
     Cluster_FreeTier := mk_FreeTier "" 0 "";
     Cluster_EncryptionMode := ""; Cluster_UserApiInterface := "";
     Cluster_PricingModel := 0; Cluster_MaxAllowedCidrRange := 0;
     Cluster_CreatedAt := ""; Cluster_Dns := false;
     Cluster_PromProxyEnabled := false |}.

Definition value (id : Z) : Item :=
  {| Item_Value := cluster id; Item_Error := any_nil |}.

Definition failed (e : any) : Item :=
  {| Item_Value := Cluster_zero; Item_Error := e |}.

(** Three payloads of the cluster listing, named by what their envelopes
    carry: three values; a value, an error and a value; a value and two
    errors. *)
Definition clusters_json : string := "[1,2,3]".
Definition clusters_one_error_json : string := "[1,E,3]".
Definition clusters_two_errors_json : string := "[1,E,F]".

Definition items : list Item := [value 1; value 2; value 3].

Definition items_one_error : list Item :=
  [value 1; failed (any_string "cluster 2 is gone"); value 3].

Definition items_two_errors : list Item :=
  [value 1; failed (any_Number "9007199254740993"); failed (any_string "late")].

Definition Decode_Items : Unmarshal (slice Item) :=
  fun d dest =>
    if String.eqb (input d) clusters_json then (Some items, None)
    else if String.eqb (input d) clusters_one_error_json
    then (Some items_one_error, None)
    else if String.eqb (input d) clusters_two_errors_json
    then (Some items_two_errors, None)
    else (dest, Some syntax_error).

Definition endpoint : string := "https://mock.test/api/v0".

(** A server on which every resource answers at once, and the cluster
    listing of account 42 is [clusters]. *)
Definition server (clusters : http.Response + netError) : list Route :=
  [ mkRoute (endpoint +:+ "/account/default") 0 (ok 200 account_json);
    mkRoute (endpoint +:+ "/deployment/provider") 0 (ok 200 providers_json);
    mkRoute (endpoint +:+ "/deployment/provider/1/region") 0 (ok 200 regions_json);
    mkRoute (endpoint +:+ "/account/42/cluster") 0 clusters ].

(** A server whose provider listing has a mistyped identifier. *)
Definition mistyped_server : list Route :=
  [ mkRoute (endpoint +:+ "/account/default") 0 (ok 200 account_json);
    mkRoute (endpoint +:+ "/deployment/provider") 0 (ok 200 providers_mistyped_json) ].

(** A server that takes 90 seconds to list the providers. *)
Definition slow_server : list Route :=
  [ mkRoute (endpoint +:+ "/account/default") 0 (ok 200 account_json);
    mkRoute (endpoint +:+ "/deployment/provider") (90 * Second) (ok 200 providers_json) ].

(** A server that is down for maintenance, with an HTML page for a body. *)
Definition maintenance : list Route :=
  [ mkRoute (endpoint +:+ "/account/default") 0 (ok 503 "<html>maintenance</html>");
    mkRoute (endpoint +:+ "/deployment/provider") 0 (ok 200 "<html>maintenance</html>");
    mkRoute (endpoint +:+ "/deployment/provider/1/region") 0 (ok 200 "<html>maintenance</html>");
    mkRoute (endpoint +:+ "/account/42/cluster") 0 (ok 200 "<html>maintenance</html>") ].

(** The client [NewClient] builds against [server]. *)
Definition client : Client :=
  {| Client_token := "t0k3n";
     Client_accountId := 42;
     Client_endpoint := endpoint;
     Client_Client := http.zero;
     Client_timeDeltaMutex := {| locked := false |};
     Client_timeDeltaDone := false;
     Client_timeDelta := 0;
     Client_Timeout := DefaultTimeout |}.

(** The same client after its owner set the exported field [Client] to an
    HTTP client with a round tripper and a time limit of its own. *)
Definition tuned_client : Client :=
  {| Client_token := "t0k3n";
     Client_accountId := 42;
     Client_endpoint := endpoint;
     Client_Client := {| http.Transport := Some 1%nat; http.Timeout := 5 * Second |};
     Client_timeDeltaMutex := {| locked := false |};
     Client_timeDeltaDone := false;
     Client_timeDelta := 0;
     Client_Timeout := DefaultTimeout |}.

(** A server nobody listens on. *)
Definition connection_refused : netError :=
  {| ne_text := "dial tcp 192.0.2.1:443: connect: connection refused";
     ne_timeout := false |}.

Definition unreachable : list Route :=
  [ mkRoute (endpoint +:+ "/account/default") 0 (inr connection_refused);
    mkRoute (endpoint +:+ "/deployment/provider") 0 (inr connection_refused) ].

(** A server whose answer, a 500, breaks off in the middle of the body. *)
Definition truncated : list Route :=
  [ mkRoute (endpoint +:+ "/deployment/provider") 0
      (inl {| http.StatusCode := 500;
              http.Body := {| http.content := "<ht";
                              http.read_err := Some "unexpected EOF" |} |}) ].

(** A server that answers every listing with the JSON value null. *)
Definition null_server : list Route :=
  [ mkRoute (endpoint +:+ "/deployment/provider") 0 (ok 200 "null");
    mkRoute (endpoint +:+ "/deployment/provider/1/region") 0 (ok 200 "null");
    mkRoute (endpoint +:+ "/account/42/cluster") 0 (ok 200 "null") ].

(** Decoders that know null: it leaves a slice as it was. *)
Definition Decode_CloudProviders_null : Unmarshal (slice CloudProvider) :=
  fun d dest =>
    if String.eqb (input d) "null" then (dest, None)
    else Decode_CloudProviders d dest.

Definition Decode_CloudProviderRegions_null : Unmarshal (slice CloudProviderRegion) :=
  fun d dest =>
    if String.eqb (input d) "null" then (dest, None)
    else Decode_CloudProviderRegions d dest.

Definition Decode_Items_null : Unmarshal (slice Item) :=
  fun d dest =>
    if String.eqb (input d) "null" then (dest, None)
    else Decode_Items d dest.

(** A decoder that refuses to work unless [UseNumber] was called. *)
Definition Decode_UserAccount_strict : Unmarshal UserAccount :=
  fun d dest =>
    if useNumber d then Decode_UserAccount d dest
    else (dest, Some "json: numbers would be decoded as float64").

(** A client whose endpoint holds a line feed. *)
Definition broken_client : Client :=
  {| Client_token := "t0k3n";
     Client_accountId := 42;
     Client_endpoint := "https://mock.test" +:+ String (ascii_of_nat 10) EmptyString;
     Client_Client := http.zero;
     Client_timeDeltaMutex := {| locked := false |};
     Client_timeDeltaDone := false;
     Client_timeDelta := 0;
     Client_Timeout := DefaultTimeout |}.


End Mock.

(** [sub] occurs in [s]. *)
Definition contains (s sub : string) : Prop :=
  exists pre post, s = pre +:+ sub +:+ post.

(** ** The package's functions *)

Section ApiClient.

(** [url.Parse], as [http.NewRequest] calls it: the error for a URL it
    rejects. *)
Variable url_Parse : string -> option netError.

(** What the network answers to a request run by an HTTP client, given the
    calls made before it. *)
Variable RoundTrip :
  World -> http.Client -> http.Request -> http.Response + netError.

(** The verb [%v] of [fmt.Sprintf] at an [interface{}]. *)
Variable Sprintf_v : any -> string.

Context {Unmarshal_UserAccount : Unmarshal UserAccount}.
Context {Unmarshal_CloudProviders : Unmarshal (slice CloudProvider)}.
Context {Unmarshal_CloudProviderRegions : Unmarshal (slice CloudProviderRegion)}.
Context {Unmarshal_Items : Unmarshal (slice Item)}.

(** [http.NewRequest(method, url, nil)] *)
Definition http_NewRequest (method url : string) : http.Request + error :=
  match url_Parse url with
  | Some e => inr (net_error e)
  | None => inl {| http.Method := method; http.URL := url; http.Header := [] |}
  end.

(** [httpClient.Do(req)] *)
Definition Do (httpClient : http.Client) (req : http.Request)
  : IO (http.Response + error) :=
  fun w =>
    (match RoundTrip w httpClient req with
     | inl res => inl res
     | inr e => inr (net_error e)
     end,
     w ++ [(httpClient, req)]).

(** [fmt.Sprintf("HTTP request to '%s' failed with code %d: %s", url,
    code, body)] *)
Definition Sprintf_status (url : string) (code : Z) (body : string) : string :=
  "HTTP request to '" +:+ url +:+ "' failed with code " +:+ Sprintf_d code
  +:+ ": " +:+ body.

Definition Get {T : Type} `{Unmarshal T}
    (c : Client) (path : string) (resultType : T) : IO (T * option error) :=
  let url := Client_endpoint c +:+ path in
  let httpClient := http.zero in
  match http_NewRequest "GET" url with
  | inr err => mret (resultType, Some err)
  | inl req =>
    let req := http.Header_Add req "accept" "application/json" in
    let req := http.Header_Add req "Authorization" ("Bearer " +:+ Client_token c) in
    res ← Do httpClient req;
    match res with
    | inr err => mret (resultType, Some err)
    | inl res =>
      let '(body, err) := ioutil_ReadAll (http.Body res) in
      match err with
      | Some err => mret (resultType, Some err)
      | None =>
        if (http.StatusCode res <? 200) || (http.StatusCode res >=? 300) then
          mret (resultType,
                Some (errors_New (Sprintf_status url (http.StatusCode res) body)))
        else
          let d := json_NewDecoder body in
          let d := UseNumber d in
          match Decode d resultType with
          | (resultType, Some err) => mret (resultType, Some (json_error err))
          | (resultType, None) => mret (resultType, None)
          end
      end
    end
  end.

Definition findAccountId (c : Client) : IO (Client * option error) :=
  let result := UserAccount_zero in
  '(result, err) ← Get c "/account/default" result;
  match err with
  | Some err => mret (c, Some err)
  | None => mret (set_accountId c (UserAccount_AccountId result), None)
  end.

Definition NewClient (endpoint token : string) : IO (option Client * option error) :=
  let client :=
    {| Client_token := token;
       Client_accountId := 0;
       Client_endpoint := endpoint;
       Client_Client := http.zero;
       Client_timeDeltaMutex := {| locked := false |};
       Client_timeDeltaDone := false;
       Client_timeDelta := 0;
       Client_Timeout := DefaultTimeout |} in
  '(client, err) ← findAccountId client;
  match err with
  | Some err => mret (None, Some err)
  | None => mret (Some client, None)
  end.

Definition ListCloudProviders (c : Client)
  : IO (slice CloudProvider * option error) :=
  let result : slice CloudProvider := None in
  '(result, err) ← Get c "/deployment/provider" result;
  match err with
  | Some err => mret (None, Some err)
  | None => mret (result, None)
  end.

Definition ListCloudProviderRegions (c : Client) (providerId : Z)
  : IO (slice CloudProviderRegion * option error) :=
  let result : slice CloudProviderRegion := None in
  let path := "/deployment/provider/" +:+ Sprintf_d providerId +:+ "/region" in
  '(result, err) ← Get c path result;
  match err with
  | Some err => mret (None, Some err)
  | None => mret (result, None)
  end.

(** The loop of [ListClusters]: [items] is what is left of [result] from
    index [i] on, [clusters] the slice being filled. *)
Fixpoint ListClusters_range (i : nat) (items : list Item) (clusters : list Cluster)
  : slice Cluster * option error :=
  match items with
  | [] => (Some clusters, None)
  | item :: items =>
    if not_nil (Item_Error item) then
      (None, Some (errors_New ("cluster error: " +:+ Sprintf_v (Item_Error item))))
    else
      ListClusters_range (S i) items (<[i := Item_Value item]> clusters)
  end.

Definition ListClusters (c : Client) : IO (slice Cluster * option error) :=
  let result : slice Item := None in
  let path := "/account/" +:+ Sprintf_d (Client_accountId c) +:+ "/cluster" in
  '(result, err) ← Get c path result;
  match err with
  | Some err => mret (None, Some err)
  | None =>
    (* make([]Cluster, len(result)): that many zero values *)
    let clusters := replicate (len result) Cluster_zero in
    mret (ListClusters_range 0 (elems result) clusters)
  end.

(** The request [Get] hands to [Do] for a path (see [Get_eq]). *)
Definition Get_request (c : Client) (path : string) : http.Request :=
  {| http.Method := "GET";
     http.URL := Client_endpoint c +:+ path;
     http.Header := [("accept", "application/json");
                     ("Authorization", "Bearer " +:+ Client_token c)] |}.

(** The network answers the [Get] of [path], made after the calls [w],
    with status [code] and a body that reads in full as [body]. *)
Definition answers (w : World) (c : Client) (path : string)
    (code : Z) (body : string) : Prop :=
  url_Parse (Client_endpoint c +:+ path) = None /\
  exists res, RoundTrip w http.zero (Get_request c path) = inl res /\
              http.StatusCode res = code /\
              ioutil_ReadAll (http.Body res) = (body, None).

(** The path [ListClusters] asks for. *)
Definition ListClusters_path (c : Client) : string :=
  "/account/" +:+ Sprintf_d (Client_accountId c) +:+ "/cluster".

(** The cluster listing made after the calls [w] comes back with a status
    in [200, 300) and a body that decodes to the envelopes [result]. *)
Definition cluster_listing (w : World) (c : Client) (result : slice Item) : Prop :=
  exists code body,
    answers w c (ListClusters_path c) code body /\
    200 <= code < 300 /\
    Decode (UseNumber (json_NewDecoder body)) (None : slice Item) = (result, None).

(** The [Get] of [path] into [dest], made after the calls [w], comes back
    with a status in [200, 300) and a body on which the decoder fails
    with [text]. *)
Definition decode_fails {T : Type} `{Unmarshal T} (w : World) (c : Client)
    (path : string) (dest : T) (text : string) : Prop :=
  exists code body r,
    answers w c path code body /\
    200 <= code < 300 /\
    Decode (UseNumber (json_NewDecoder body)) dest = (r, Some text).

(** *** Strings *)

Lemma append_assoc (a b c : string) : (a +:+ b) +:+ c = a +:+ b +:+ c.
Proof.
  induction a as [|x a IH]; [reflexivity|].
  change (String x ((a +:+ b) +:+ c) = String x (a +:+ b +:+ c)).
  now rewrite IH.
Qed.

Lemma append_nil_r (a : string) : a +:+ "" = a.
Proof.
  induction a as [|x a IH]; [reflexivity|].
  change (String x (a +:+ "") = String x a).
  now rewrite IH.
Qed.

Lemma contains_middle (pre sub post : string) :
  contains (pre +:+ sub +:+ post) sub.
Proof. now exists pre, post. Qed.

Lemma contains_end (pre sub : string) : contains (pre +:+ sub) sub.
Proof. exists pre, "". now rewrite append_nil_r. Qed.


(** *** The executor *)

(** [Get] spelled out: the checks in the order the code makes them, and
    the one call it adds to the world once the URL has parsed. *)
Lemma Get_eq {T : Type} `{Unmarshal T} (c : Client) (path : string)
    (dest : T) (w : World) :
  Get c path dest w =
  match url_Parse (Client_endpoint c +:+ path) with
  | Some e => ((dest, Some (net_error e)), w)
  | None =>
    (match RoundTrip w http.zero (Get_request c path) with
     | inr e => (dest, Some (net_error e))
     | inl res =>
       match http.read_err (http.Body res) with
       | Some text => (dest, Some (io_error text))
       | None =>
         if (http.StatusCode res <? 200) || (http.StatusCode res >=? 300)
         then (dest, Some (errors_New
                 (Sprintf_status (Client_endpoint c +:+ path)
                    (http.StatusCode res) (http.content (http.Body res)))))
         else
           let '(r, e) :=
             Decode (UseNumber (json_NewDecoder (http.content (http.Body res)))) dest
           in (r, json_error <$> e)
       end
     end,
     w ++ [(http.zero, Get_request c path)])
  end.
Proof.
  unfold Get, http_NewRequest.
  destruct (url_Parse _) as [e|]; [reflexivity|].
  unfold mbind, IO_bind, Do, mret, IO_ret, ioutil_ReadAll.
  change (http.Header_Add _ _ _) with (Get_request c path).
  destruct (RoundTrip w http.zero (Get_request c path)) as [res|e]; [|reflexivity].
  destruct (http.read_err (http.Body res)) as [text|]; cbn; [reflexivity|].
  destruct (_ || _); [reflexivity|].
  destruct (Decode _ dest) as [r [e|]]; reflexivity.
Qed.

(** Once the network has answered, what is left of [Get] is the status
    check and the decoder. *)
Lemma Get_answers {T : Type} `{Unmarshal T} (c : Client) (path : string)
    (dest : T) (w : World) (code : Z) (body : string) :
  answers w c path code body ->
  Get c path dest w =
  (if (code <? 200) || (code >=? 300)
   then (dest, Some (errors_New (Sprintf_status (Client_endpoint c +:+ path) code body)))
   else let '(r, e) := Decode (UseNumber (json_NewDecoder body)) dest
        in (r, json_error <$> e),
   w ++ [(http.zero, Get_request c path)]).
Proof.
  intros (Hu & res & Hr & <- & Hb).
  rewrite Get_eq, Hu, Hr.
  unfold ioutil_ReadAll in Hb. injection Hb as -> He.
  destruct (http.read_err (http.Body res)); [discriminate | reflexivity].
Qed.

(** [Get] reads two fields of the client, the endpoint and the token. *)
Lemma Get_ext {T : Type} `{Unmarshal T} (c1 c2 : Client) (path : string)
    (dest : T) (w : World) :
  Client_endpoint c1 = Client_endpoint c2 ->
  Client_token c1 = Client_token c2 ->
  Get c1 path dest w = Get c2 path dest w.
Proof.
  intros He Ht. rewrite !Get_eq. unfold Get_request. now rewrite He, Ht.
Qed.

(** [Get] makes at most one call, with a zero [http.Client]. *)
Lemma Get_world {T : Type} `{Unmarshal T} (c : Client) (path : string)
    (dest : T) (w : World) :
  snd (Get c path dest w) =
  match url_Parse (Client_endpoint c +:+ path) with
  | Some _ => w
  | None => w ++ [(http.zero, Get_request c path)]
  end.
Proof. rewrite Get_eq. now destruct (url_Parse _). Qed.

(** C2.  Whatever the status code the network answers with, [Get] takes
    the answer for a success exactly when 200 <= code < 300.  Outside of
    that interval it returns the error made by [errors.New] whose message
    is "HTTP request to '<url>' failed with code <code>: <body>", which
    holds the URL of the request, the status code in decimal and the body
    text as it was read, and leaves the destination alone; inside, its
    result is the decoder's. *)
Theorem Get_status_check {T : Type} `{Unmarshal T} (c : Client) (path : string)
    (dest : T) (w : World) (code : Z) (body : string) :
  answers w c path code body ->
  let url := Client_endpoint c +:+ path in
  (code < 200 \/ 300 <= code ->
   exists msg,
     fst (Get c path dest w) = (dest, Some (errors_New msg)) /\
     msg = "HTTP request to '" +:+ url +:+ "' failed with code "
           +:+ Sprintf_d code +:+ ": " +:+ body /\
     contains msg url /\ contains msg (Sprintf_d code) /\ contains msg body) /\
  (200 <= code < 300 ->
   fst (Get c path dest w) =
   let '(r, e) := Decode (UseNumber (json_NewDecoder body)) dest
   in (r, json_error <$> e)).
Proof.
  intros Ha url. rewrite (Get_answers _ _ _ _ _ _ Ha). cbn [fst]. split.
  - intros Hc.
    assert (E : (code <? 200) || (code >=? 300) = true).
    { apply orb_true_iff. destruct Hc; [left | right]; lia. }
    rewrite E. unfold Sprintf_status. fold url.
    eexists. split; [reflexivity|]. split; [reflexivity|].
    repeat split.
    + apply contains_middle.
    + rewrite <- (append_assoc url), <- (append_assoc "HTTP request to '").
      apply contains_middle.
    + rewrite <- (append_assoc (Sprintf_d code)), <- (append_assoc _ _ body).
      rewrite <- (append_assoc url), <- (append_assoc "HTTP request to '").
      apply contains_end.
  - intros Hc.
    assert (E : (code <? 200) || (code >=? 300) = false).
    { apply orb_false_iff. split; lia. }
    now rewrite E.
Qed.

(** *** The accessors *)

Lemma ListCloudProviders_eq (c : Client) (w : World) :
  ListCloudProviders c w =
  match Get c "/deployment/provider" (None : slice CloudProvider) w with
  | ((_, Some err), w') => ((None, Some err), w')
  | ((result, None), w') => ((result, None), w')
  end.
Proof.
  unfold ListCloudProviders, mbind, IO_bind, mret, IO_ret.
  now destruct (Get _ _ _ _) as [[r [e|]] w'].
Qed.

Lemma ListCloudProviderRegions_eq (c : Client) (providerId : Z) (w : World) :
  ListCloudProviderRegions c providerId w =
  match Get c ("/deployment/provider/" +:+ Sprintf_d providerId +:+ "/region")
            (None : slice CloudProviderRegion) w with
  | ((_, Some err), w') => ((None, Some err), w')
  | ((result, None), w') => ((result, None), w')
  end.
Proof.
  unfold ListCloudProviderRegions, mbind, IO_bind, mret, IO_ret.
  now destruct (Get _ _ _ _) as [[r [e|]] w'].
Qed.

Lemma ListClusters_eq (c : Client) (w : World) :
  ListClusters c w =
  match Get c (ListClusters_path c) (None : slice Item) w with
  | ((_, Some err), w') => ((None, Some err), w')
  | ((result, None), w') =>
    (ListClusters_range 0 (elems result) (replicate (len result) Cluster_zero), w')
  end.
Proof.
  unfold ListClusters, ListClusters_path, mbind, IO_bind, mret, IO_ret.
  now destruct (Get _ _ _ _) as [[r [e|]] w'].
Qed.

(** *** The loop of [ListClusters] *)

Lemma not_nil_true (x : any) : not_nil x = true <-> x <> any_nil.
Proof. destruct x; cbn; split; intros; congruence. Qed.

Lemma not_nil_false (x : any) : not_nil x = false <-> x = any_nil.
Proof. destruct x; cbn; split; intros; congruence. Qed.

(** With no error among the envelopes that are left, the loop fills the
    slots from [length done] on and returns the whole slice. *)
Lemma ListClusters_range_values (items : list Item) :
  forall done : list Cluster,
    (forall item, item ∈ items -> Item_Error item = any_nil) ->
    ListClusters_range (length done) items
      (done ++ replicate (length items) Cluster_zero)
    = (Some (done ++ (Item_Value <$> items)), None).
Proof.
  induction items as [|item items IH]; intros done Hok.
  - cbn. now rewrite !app_nil_r.
  - cbn [ListClusters_range].
    assert (E : not_nil (Item_Error item) = false).
    { apply not_nil_false, Hok. left. }
    rewrite E. cbn [length replicate].
    replace (length done) with (length done + 0)%nat at 2 by lia.
    rewrite insert_app_r. cbn [insert list_insert].
    rewrite (cons_middle (Item_Value item)), app_assoc.
    replace (S (length done)) with (length (done ++ [Item_Value item]))
      by (rewrite length_app; cbn; lia).
    rewrite IH.
    + now rewrite fmap_cons, <- app_assoc.
    + intros x Hx. apply Hok. now right.
Qed.

(** The loop stops at the first envelope whose error is not nil, whatever
    comes after it. *)
Lemma ListClusters_range_first_error (before : list Item) (item : Item)
    (after : list Item) :
  (forall x, x ∈ before -> Item_Error x = any_nil) ->
  Item_Error item <> any_nil ->
  forall (i : nat) (clusters : list Cluster),
    ListClusters_range i (before ++ item :: after) clusters
    = (None, Some (errors_New ("cluster error: " +:+ Sprintf_v (Item_Error item)))).
Proof.
  intros Hok Herr. induction before as [|x before IH]; intros i clusters.
  - cbn. apply not_nil_true in Herr. now rewrite Herr.
  - cbn [app ListClusters_range].
    assert (E : not_nil (Item_Error x) = false).
    { apply not_nil_false, Hok. left. }
    rewrite E. apply IH. intros y Hy. apply Hok. now right.
Qed.

(** A sequence that holds an error splits at its first one. *)
Lemma first_error_split (items : list Item) :
  (exists item, item ∈ items /\ Item_Error item <> any_nil) ->
  exists before item after,
    items = before ++ item :: after /\
    (forall x, x ∈ before -> Item_Error x = any_nil) /\
    Item_Error item <> any_nil.
Proof.
  induction items as [|x items IH]; intros (item & Hin & Herr).
  - inversion Hin.
  - destruct (not_nil (Item_Error x)) eqn:E.
    + exists [], x, items. split; [reflexivity|]. split.
      * intros y Hy. inversion Hy.
      * now apply not_nil_true.
    + apply not_nil_false in E.
      destruct IH as (before & it & after & -> & Hok & Hit).
      { exists item. split; [|exact Herr].
        apply elem_of_cons in Hin as [->|Hin]; [congruence | exact Hin]. }
      exists (x :: before), it, after. split; [reflexivity|]. split; [|exact Hit].
      intros y Hy. apply elem_of_cons in Hy as [->|Hy]; [exact E | now apply Hok].
Qed.

(** The loop never returns clusters together with an error. *)
Lemma ListClusters_range_error (items : list Item) :
  forall (i : nat) (clusters : list Cluster),
    snd (ListClusters_range i items clusters) <> None ->
    fst (ListClusters_range i items clusters) = None.
Proof.
  induction items as [|x items IH]; intros i clusters; cbn.
  - congruence.
  - destruct (not_nil (Item_Error x)); [reflexivity | apply IH].
Qed.

Lemma cluster_listing_Get (w : World) (c : Client) (result : slice Item) :
  cluster_listing w c result ->
  Get c (ListClusters_path c) (None : slice Item) w =
  ((result, None), w ++ [(http.zero, Get_request c (ListClusters_path c))]).
Proof.
  intros (code & body & Ha & Hc & Hd).
  rewrite (Get_answers _ _ _ _ _ _ Ha), Hd.
  assert (E : (code <? 200) || (code >=? 300) = false).
  { apply orb_false_iff. split; lia. }
  now rewrite E.
Qed.

(** C1.  When the cluster listing decodes to a sequence of envelopes of
    which at least one has an error that is not nil, [ListClusters]
    returns the nil slice, none of the values of the other envelopes, and
    the error "cluster error: <error>" made from the error of one of the
    envelopes that has one. *)
Theorem ListClusters_item_error (c : Client) (w : World) (result : slice Item) :
  cluster_listing w c result ->
  (exists item, item ∈ elems result /\ Item_Error item <> any_nil) ->
  exists item,
    item ∈ elems result /\ Item_Error item <> any_nil /\
    fst (ListClusters c w) =
    (None, Some (errors_New ("cluster error: " +:+ Sprintf_v (Item_Error item)))).
Proof.
  intros Hl Hex.
  destruct (first_error_split _ Hex) as (before & item & after & E & Hok & Herr).
  exists item. split; [|split; [exact Herr|]].
  - rewrite E. apply elem_of_app. right. left.
  - rewrite ListClusters_eq, (cluster_listing_Get _ _ _ Hl). cbn [fst].
    rewrite E. now apply ListClusters_range_first_error.
Qed.

(** C4.  When no envelope of the decoded cluster listing has an error,
    [ListClusters] returns no error and the values of the envelopes: as
    many clusters as envelopes, the cluster at each index being the value
    of the envelope at that index. *)
Theorem ListClusters_all_values (c : Client) (w : World) (result : slice Item) :
  cluster_listing w c result ->
  (forall item, item ∈ elems result -> Item_Error item = any_nil) ->
  exists clusters : list Cluster,
    fst (ListClusters c w) = (Some clusters, None) /\
    clusters = Item_Value <$> elems result /\
    length clusters = len result /\
    forall i : nat, clusters !! i = Item_Value <$> (elems result !! i).
Proof.
  intros Hl Hok. exists (Item_Value <$> elems result).
  split; [|split; [reflexivity|split]].
  - rewrite ListClusters_eq, (cluster_listing_Get _ _ _ Hl). cbn [fst].
    apply (ListClusters_range_values (elems result) [] Hok).
  - unfold len. apply length_fmap.
  - intros i. apply list_lookup_fmap.
Qed.

(** C9.  When several envelopes of the decoded cluster listing have an
    error, the error [ListClusters] returns is made from the first of
    them: the envelope at the lowest index whose error is not nil. *)
Theorem ListClusters_first_error (c : Client) (w : World) (result : slice Item)
    (i : nat) (item : Item) :
  cluster_listing w c result ->
  elems result !! i = Some item ->
  Item_Error item <> any_nil ->
  (forall (j : nat) (x : Item),
      (j < i)%nat -> elems result !! j = Some x -> Item_Error x = any_nil) ->
  fst (ListClusters c w) =
  (None, Some (errors_New ("cluster error: " +:+ Sprintf_v (Item_Error item)))).
Proof.
  intros Hl Hi Herr Hlow.
  rewrite ListClusters_eq, (cluster_listing_Get _ _ _ Hl). cbn [fst].
  rewrite <- (take_drop_middle _ _ _ Hi).
  apply ListClusters_range_first_error; [|exact Herr].
  intros x Hx. apply list_elem_of_lookup in Hx as [j Hj].
  apply lookup_take_Some in Hj as [Hj Hlt]. exact (Hlow j x Hlt Hj).
Qed.

(** *** Decoding *)

Lemma decode_fails_Get {T : Type} `{Unmarshal T} (w : World) (c : Client)
    (path : string) (dest : T) (text : string) :
  decode_fails w c path dest text ->
  exists r, Get c path dest w =
            ((r, Some (json_error text)), w ++ [(http.zero, Get_request c path)]).
Proof.
  intros (code & body & r & Ha & Hc & Hd). exists r.
  rewrite (Get_answers _ _ _ _ _ _ Ha), Hd.
  assert (E : (code <? 200) || (code >=? 300) = false).
  { apply orb_false_iff. split; lia. }
  now rewrite E.
Qed.

(** C8.  When an answer with a status in [200, 300) has a body the
    decoder fails on, each accessor returns a nil value and the decoder's
    own error, and so does [Get] with what the decoder left in the
    destination.  That error is none of the errors [Get] makes with
    [errors.New] for a status outside the interval. *)
Theorem decode_error_is_not_status_error (c : Client) (w : World) (providerId : Z) :
  (forall (T : Type) (U : Unmarshal T) (path : string) (dest : T) (text : string),
      decode_fails w c path dest text ->
      exists r, fst (Get c path dest w) = (r, Some (json_error text))) /\
  (forall text,
      decode_fails w c "/deployment/provider" (None : slice CloudProvider) text ->
      fst (ListCloudProviders c w) = (None, Some (json_error text))) /\
  (forall text,
      decode_fails w c ("/deployment/provider/" +:+ Sprintf_d providerId +:+ "/region")
        (None : slice CloudProviderRegion) text ->
      fst (ListCloudProviderRegions c providerId w) = (None, Some (json_error text))) /\
  (forall text,
      decode_fails w c (ListClusters_path c) (None : slice Item) text ->
      fst (ListClusters c w) = (None, Some (json_error text))) /\
  (forall text url code body,
      json_error text <> errors_New (Sprintf_status url code body)).
Proof.
  repeat split.
  - intros T U path dest text Hd.
    destruct (decode_fails_Get _ _ _ _ _ Hd) as [r E]. exists r. now rewrite E.
  - intros text Hd. destruct (decode_fails_Get _ _ _ _ _ Hd) as [r E].
    now rewrite ListCloudProviders_eq, E.
  - intros text Hd. destruct (decode_fails_Get _ _ _ _ _ Hd) as [r E].
    now rewrite ListCloudProviderRegions_eq, E.
  - intros text Hd. destruct (decode_fails_Get _ _ _ _ _ Hd) as [r E].
    now rewrite ListClusters_eq, E.
  - discriminate.
Qed.

(** *** Construction *)

Lemma NewClient_eq (endpoint token : string) (w : World) :
  let client :=
    {| Client_token := token; Client_accountId := 0;
       Client_endpoint := endpoint; Client_Client := http.zero;
       Client_timeDeltaMutex := {| locked := false |};
       Client_timeDeltaDone := false; Client_timeDelta := 0;
       Client_Timeout := DefaultTimeout |} in
  NewClient endpoint token w =
  match Get client "/account/default" UserAccount_zero w with
  | ((_, Some err), w') => ((None, Some err), w')
  | ((result, None), w') =>
    ((Some (set_accountId client (UserAccount_AccountId result)), None), w')
  end.
Proof.
  intros client.
  unfold NewClient, findAccountId, mbind, IO_bind, mret, IO_ret. fold client.
  now destruct (Get client _ _ _) as [[r [e|]] w'].
Qed.

(** C5.  When the call to /account/default made for the endpoint and the
    token fails, for whatever reason, [NewClient] returns a nil client
    and the error of that call.  The call is the same for every value of
    the other fields of the client, the account identifier among them:
    the bootstrap does not read it. *)
Theorem NewClient_bootstrap_failure (endpoint token : string) (c0 : Client)
    (w w' : World) (r : UserAccount) (err : error) :
  Client_endpoint c0 = endpoint ->
  Client_token c0 = token ->
  Get c0 "/account/default" UserAccount_zero w = ((r, Some err), w') ->
  NewClient endpoint token w = ((None, Some err), w').
Proof.
  intros He Ht Hg. rewrite NewClient_eq.
  rewrite (Get_ext _ c0) by (cbn; congruence). now rewrite Hg.
Qed.

(** C6.  When the call to /account/default succeeds with an account whose
    identifier is N, [NewClient] returns a client, and every
    [ListClusters] of that client, whatever calls came before, asks for
    <endpoint>/account/N/cluster with N in decimal: it sends one GET
    request to that URL, unless [http.NewRequest] refuses the URL, in
    which case it sends nothing and returns that error. *)
Theorem ListClusters_targets_account (endpoint token : string) (c0 : Client)
    (w w1 : World) (account : UserAccount) :
  Client_endpoint c0 = endpoint ->
  Client_token c0 = token ->
  Get c0 "/account/default" UserAccount_zero w = ((account, None), w1) ->
  exists c : Client,
    NewClient endpoint token w = ((Some c, None), w1) /\
    forall w2 : World,
      let url := endpoint +:+ "/account/"
                 +:+ Sprintf_d (UserAccount_AccountId account) +:+ "/cluster" in
      match url_Parse url with
      | None =>
        exists req, snd (ListClusters c w2) = w2 ++ [(http.zero, req)] /\
                    http.Method req = "GET" /\ http.URL req = url
      | Some e => ListClusters c w2 = ((None, Some (net_error e)), w2)
      end.
Proof.
  intros He Ht Hg. eexists. split.
  - rewrite NewClient_eq. rewrite (Get_ext _ c0) by (cbn; congruence).
    rewrite Hg. reflexivity.
  - intros w2 url. rewrite ListClusters_eq.
    set (c := set_accountId _ _).
    pose proof (Get_world c (ListClusters_path c) (None : slice Item) w2) as Hw.
    pose proof (Get_eq c (ListClusters_path c) (None : slice Item) w2) as Hq.
    change (Client_endpoint c +:+ ListClusters_path c) with url in Hw, Hq.
    destruct (url_Parse url) as [e|].
    + now rewrite Hq.
    + exists (Get_request c (ListClusters_path c)).
      split; [|split; reflexivity].
      destruct (Get c _ _ w2) as [[r [e|]] w3]; exact Hw.
Qed.

(** *** Values and errors *)

(** C10.  None of [ListCloudProviders], [ListCloudProviderRegions],
    [ListClusters] and [NewClient] returns a value that is not nil
    together with an error that is not nil. *)
Theorem error_excludes_value (c : Client) (providerId : Z)
    (endpoint token : string) (w : World) :
  (snd (fst (ListCloudProviders c w)) <> None ->
   fst (fst (ListCloudProviders c w)) = None) /\
  (snd (fst (ListCloudProviderRegions c providerId w)) <> None ->
   fst (fst (ListCloudProviderRegions c providerId w)) = None) /\
  (snd (fst (ListClusters c w)) <> None ->
   fst (fst (ListClusters c w)) = None) /\
  (snd (fst (NewClient endpoint token w)) <> None ->
   fst (fst (NewClient endpoint token w)) = None).
Proof.
  repeat split.
  - rewrite ListCloudProviders_eq.
    destruct (Get _ _ _ _) as [[r [e|]] w']; cbn; congruence.
  - rewrite ListCloudProviderRegions_eq.
    destruct (Get _ _ _ _) as [[r [e|]] w']; cbn; congruence.
  - rewrite ListClusters_eq.
    destruct (Get _ _ _ _) as [[r [e|]] w']; cbn; [congruence|].
    apply ListClusters_range_error.
  - rewrite NewClient_eq.
    destruct (Get _ _ _ _) as [[r [e|]] w']; cbn; congruence.
Qed.

(** *** More on the executor *)

(** X1.  Whenever the URL parses, [Get] makes exactly one call, however it
    ends: a GET of the endpoint followed by the path, with the two headers
    [accept: application/json] and [Authorization: Bearer <token>] and no
    other, run by a zero [http.Client]. *)
Theorem Get_sends_authenticated_request {T : Type} `{Unmarshal T}
    (c : Client) (path : string) (dest : T) (w : World) :
  url_Parse (Client_endpoint c +:+ path) = None ->
  exists req,
    snd (Get c path dest w) = w ++ [(http.zero, req)] /\
    http.Method req = "GET" /\
    http.URL req = Client_endpoint c +:+ path /\
    http.Header req = [("accept", "application/json");
                       ("Authorization", "Bearer " +:+ Client_token c)].
Proof.
  intros Hu. exists (Get_request c path). rewrite Get_world, Hu.
  repeat split.
Qed.

(** X2.  When [http.NewRequest] refuses the URL, [Get] returns that error,
    sends nothing and leaves the destination as it was. *)
Theorem Get_refused_url {T : Type} `{Unmarshal T}
    (c : Client) (path : string) (dest : T) (w : World) (e : netError) :
  url_Parse (Client_endpoint c +:+ path) = Some e ->
  Get c path dest w = ((dest, Some (net_error e)), w).
Proof. intros Hu. now rewrite Get_eq, Hu. Qed.

(** X3.  When the round trip fails, [Get] returns the error of the
    transport as it is, so what its [Timeout()] answers is kept, and leaves
    the destination as it was. *)
Theorem Get_transport_error {T : Type} `{Unmarshal T}
    (c : Client) (path : string) (dest : T) (w : World) (e : netError) :
  url_Parse (Client_endpoint c +:+ path) = None ->
  RoundTrip w http.zero (Get_request c path) = inr e ->
  Get c path dest w =
  ((dest, Some (net_error e)), w ++ [(http.zero, Get_request c path)]).
Proof. intros Hu Hr. now rewrite Get_eq, Hu, Hr. Qed.

(** X4.  The body is read before the status is looked at: when the read
    fails, [Get] returns the error of the read whatever the status code,
    200 or 500 alike, and the destination is as it was. *)
Theorem Get_read_error_first {T : Type} `{Unmarshal T}
    (c : Client) (path : string) (dest : T) (w : World)
    (res : http.Response) (text : string) :
  url_Parse (Client_endpoint c +:+ path) = None ->
  RoundTrip w http.zero (Get_request c path) = inl res ->
  http.read_err (http.Body res) = Some text ->
  Get c path dest w =
  ((dest, Some (io_error text)), w ++ [(http.zero, Get_request c path)]).
Proof. intros Hu Hr He. now rewrite Get_eq, Hu, Hr, He. Qed.

(** X5.  [Get] returns no error only for an answer whose body was read in
    full, whose status is in [200, 300) and whose body the decoder took
    without error; what it returns then is what the decoder made of the
    destination. *)
Theorem Get_success_inv {T : Type} `{Unmarshal T}
    (c : Client) (path : string) (dest r : T) (w w' : World) :
  Get c path dest w = ((r, None), w') ->
  url_Parse (Client_endpoint c +:+ path) = None /\
  exists res,
    RoundTrip w http.zero (Get_request c path) = inl res /\
    http.read_err (http.Body res) = None /\
    200 <= http.StatusCode res < 300 /\
    Decode (UseNumber (json_NewDecoder (http.content (http.Body res)))) dest
    = (r, None) /\
    w' = w ++ [(http.zero, Get_request c path)].
Proof.
  rewrite Get_eq. destruct (url_Parse _) as [e|]; [discriminate|].
  intros [= Hres <-]. split; [reflexivity|].
  destruct (RoundTrip _ _ _) as [res|e]; [|discriminate].
  exists res. split; [reflexivity|].
  destruct (http.read_err _) as [text|]; [discriminate|]. split; [reflexivity|].
  destruct (_ || _) eqn:E; [discriminate|].
  apply orb_false_iff in E as [E1 E2]. split; [lia|].
  destruct (Decode _ dest) as [r' [e|]]; [discriminate|].
  injection Hres as ->. now split.
Qed.

(** X6.  An error of [Get] that does not come from the decoder leaves the
    destination as it was: only a failing decode can hand back a
    destination that is partly written. *)
Theorem Get_error_keeps_destination {T : Type} `{Unmarshal T}
    (c : Client) (path : string) (dest : T) (w : World) :
  snd (fst (Get c path dest w)) <> None ->
  (forall text, snd (fst (Get c path dest w)) <> Some (json_error text)) ->
  fst (fst (Get c path dest w)) = dest.
Proof.
  rewrite Get_eq. destruct (url_Parse _) as [e|]; [reflexivity|]. cbn [fst snd].
  destruct (RoundTrip _ _ _) as [res|e]; [|reflexivity].
  destruct (http.read_err _) as [text|]; [reflexivity|].
  destruct (_ || _); [reflexivity|].
  destruct (Decode _ dest) as [r' [e|]]; cbn; intros Hn Hj.
  - now destruct (Hj e).
  - now destruct Hn.
Qed.

(** X7.  [Get] decodes with [UseNumber] set and in no other way: two
    decoders that agree whenever [UseNumber] was called give the same
    [Get]. *)
Theorem Get_always_UseNumber {T : Type} (U1 U2 : Unmarshal T)
    (c : Client) (path : string) (dest : T) (w : World) :
  (forall (body : string) (d : T),
      @Decode T U1 {| input := body; useNumber := true |} d
      = @Decode T U2 {| input := body; useNumber := true |} d) ->
  @Get T U1 c path dest w = @Get T U2 c path dest w.
Proof.
  intros Hagree. rewrite !Get_eq. unfold UseNumber, json_NewDecoder. cbn [input].
  destruct (url_Parse _); [reflexivity|].
  destruct (RoundTrip _ _ _) as [res|e]; [|reflexivity].
  now rewrite Hagree.
Qed.

(** X8.  On a status outside [200, 300) the body is not decoded: the
    result of [Get] is the same for every decoder. *)
Theorem Get_status_error_any_decoder {T : Type} (U1 U2 : Unmarshal T)
    (c : Client) (path : string) (dest : T) (w : World) (code : Z) (body : string) :
  answers w c path code body ->
  code < 200 \/ 300 <= code ->
  @Get T U1 c path dest w = @Get T U2 c path dest w.
Proof.
  intros Ha Hc.
  rewrite (@Get_answers T U1 _ _ _ _ _ _ Ha), (@Get_answers T U2 _ _ _ _ _ _ Ha).
  assert (E : (code <? 200) || (code >=? 300) = true).
  { apply orb_true_iff. destruct Hc; [left | right]; lia. }
  now rewrite E.
Qed.

(** *** More on the accessors *)

(** X9.  Each accessor makes one call when its URL parses and none when it
    does not, whether it then succeeds or fails: the listing of providers
    asks for /deployment/provider, the listing of regions for
    /deployment/provider/<id>/region and the listing of clusters for
    /account/<account id>/cluster, each under the endpoint. *)
Theorem accessors_make_one_call (c : Client) (providerId : Z) (w : World) :
  let regions := "/deployment/provider/" +:+ Sprintf_d providerId +:+ "/region" in
  let clusters := "/account/" +:+ Sprintf_d (Client_accountId c) +:+ "/cluster" in
  snd (ListCloudProviders c w) =
  match url_Parse (Client_endpoint c +:+ "/deployment/provider") with
  | Some _ => w
  | None => w ++ [(http.zero, Get_request c "/deployment/provider")]
  end /\
  snd (ListCloudProviderRegions c providerId w) =
  match url_Parse (Client_endpoint c +:+ regions) with
  | Some _ => w
  | None => w ++ [(http.zero, Get_request c regions)]
  end /\
  snd (ListClusters c w) =
  match url_Parse (Client_endpoint c +:+ clusters) with
  | Some _ => w
  | None => w ++ [(http.zero, Get_request c clusters)]
  end.
Proof.
  intros regions clusters. repeat split.
  - rewrite ListCloudProviders_eq.
    rewrite <- (Get_world c _ (None : slice CloudProvider) w).
    now destruct (Get _ _ _ _) as [[r [e|]] w'].
  - rewrite ListCloudProviderRegions_eq. fold regions.
    rewrite <- (Get_world c _ (None : slice CloudProviderRegion) w).
    now destruct (Get _ _ _ _) as [[r [e|]] w'].
  - rewrite ListClusters_eq.
    change (ListClusters_path c) with clusters.
    rewrite <- (Get_world c _ (None : slice Item) w).
    now destruct (Get _ _ _ _) as [[r [e|]] w'].
Qed.

(** X10.  The listings of providers and of regions hand over what the
    decoder made of a nil slice, as it is and with no error: the decoded
    elements, or nil when the decoder wrote nothing. *)
Theorem provider_listings_pass_through (c : Client) (providerId : Z) (w : World) :
  (forall code body result,
      answers w c "/deployment/provider" code body ->
      200 <= code < 300 ->
      Decode (UseNumber (json_NewDecoder body)) (None : slice CloudProvider)
      = (result, None) ->
      fst (ListCloudProviders c w) = (result, None)) /\
  (forall code body result,
      answers w c ("/deployment/provider/" +:+ Sprintf_d providerId +:+ "/region")
        code body ->
      200 <= code < 300 ->
      Decode (UseNumber (json_NewDecoder body)) (None : slice CloudProviderRegion)
      = (result, None) ->
      fst (ListCloudProviderRegions c providerId w) = (result, None)).
Proof.
  split; intros code body result Ha Hc Hd;
    assert (E : (code <? 200) || (code >=? 300) = false)
      by (apply orb_false_iff; split; lia).
  - now rewrite ListCloudProviders_eq, (Get_answers _ _ _ _ _ _ Ha), E, Hd.
  - now rewrite ListCloudProviderRegions_eq, (Get_answers _ _ _ _ _ _ Ha), E, Hd.
Qed.

(** X11.  On a status outside [200, 300) each accessor, and [NewClient],
    returns a nil value and the status error of [Get] for its own URL,
    with nothing added to it. *)
Theorem accessors_status_error (c : Client) (providerId : Z)
    (endpoint token : string) (w : World) (code : Z) (body : string) :
  code < 200 \/ 300 <= code ->
  let regions := "/deployment/provider/" +:+ Sprintf_d providerId +:+ "/region" in
  (answers w c "/deployment/provider" code body ->
   fst (ListCloudProviders c w) =
   (None, Some (errors_New
      (Sprintf_status (Client_endpoint c +:+ "/deployment/provider") code body)))) /\
  (answers w c regions code body ->
   fst (ListCloudProviderRegions c providerId w) =
   (None, Some (errors_New
      (Sprintf_status (Client_endpoint c +:+ regions) code body)))) /\
  (answers w c (ListClusters_path c) code body ->
   fst (ListClusters c w) =
   (None, Some (errors_New
      (Sprintf_status (Client_endpoint c +:+ ListClusters_path c) code body)))) /\
  (Client_endpoint c = endpoint -> Client_token c = token ->
   answers w c "/account/default" code body ->
   fst (NewClient endpoint token w) =
   (None, Some (errors_New
      (Sprintf_status (endpoint +:+ "/account/default") code body)))).
Proof.
  intros Hc regions.
  assert (E : (code <? 200) || (code >=? 300) = true).
  { apply orb_true_iff. destruct Hc; [left | right]; lia. }
  repeat split.
  - intros Ha. now rewrite ListCloudProviders_eq, (Get_answers _ _ _ _ _ _ Ha), E.
  - intros Ha.
    now rewrite ListCloudProviderRegions_eq, (Get_answers _ _ _ _ _ _ Ha), E.
  - intros Ha. now rewrite ListClusters_eq, (Get_answers _ _ _ _ _ _ Ha), E.
  - intros He Ht Ha. rewrite NewClient_eq.
    rewrite (Get_ext _ c) by (cbn; congruence).
    rewrite (Get_answers _ _ _ _ _ _ Ha), E. now rewrite He.
Qed.

(** X12.  The accessors read the endpoint and the token of the client, and
    [ListClusters] its account identifier besides; no other field: two
    clients that agree on these give the same results and make the same
    calls. *)
Theorem accessors_read_three_fields (c1 c2 : Client) (providerId : Z) (w : World) :
  Client_endpoint c1 = Client_endpoint c2 ->
  Client_token c1 = Client_token c2 ->
  ListCloudProviders c1 w = ListCloudProviders c2 w /\
  ListCloudProviderRegions c1 providerId w = ListCloudProviderRegions c2 providerId w /\
  (Client_accountId c1 = Client_accountId c2 ->
   ListClusters c1 w = ListClusters c2 w).
Proof.
  intros He Ht. repeat split.
  - now rewrite !ListCloudProviders_eq, (Get_ext c1 c2).
  - now rewrite !ListCloudProviderRegions_eq, (Get_ext c1 c2).
  - intros Hi. rewrite !ListClusters_eq. unfold ListClusters_path.
    now rewrite Hi, (Get_ext c1 c2).
Qed.

(** X13.  [ListClusters] and [NewClient] return exactly one of a value and
    an error: a slice that is not nil, be it empty, or a client, when the
    error is nil. *)
Theorem value_or_error (c : Client) (endpoint token : string) (w : World) :
  ((exists clusters, fst (ListClusters c w) = (Some clusters, None)) \/
   (exists err, fst (ListClusters c w) = (None, Some err))) /\
  ((exists client, fst (NewClient endpoint token w) = (Some client, None)) \/
   (exists err, fst (NewClient endpoint token w) = (None, Some err))).
Proof.
  split.
  - rewrite ListClusters_eq.
    destruct (Get _ _ _ _) as [[r [e|]] w']; cbn [fst]; [right; now exists e|].
    generalize (replicate (len r) Cluster_zero), 0%nat.
    induction (elems r) as [|x items IH]; intros clusters i; cbn.
    + left. now exists clusters.
    + destruct (not_nil (Item_Error x)); [right; eauto | apply IH].
  - rewrite NewClient_eq.
    destruct (Get _ _ _ _) as [[r [e|]] w']; cbn [fst]; [right | left]; eauto.
Qed.

(** X14.  A cluster listing that decodes to no envelope at all, an empty
    sequence or a slice left nil, gives an empty slice that is not nil and
    no error. *)
Theorem ListClusters_empty (c : Client) (w : World) (result : slice Item) :
  cluster_listing w c result ->
  len result = 0%nat ->
  fst (ListClusters c w) = (Some [], None).
Proof.
  intros Hl Hn. rewrite ListClusters_eq, (cluster_listing_Get _ _ _ Hl). cbn [fst].
  rewrite Hn. unfold len in Hn. apply length_zero_iff_nil in Hn. now rewrite Hn.
Qed.

(** *** More on construction *)


(** X16.  [NewClient] makes its one call, to /account/default under the
    endpoint and with the token as bearer, whether the bootstrap then
    succeeds or fails; it makes none when the URL does not parse. *)
Theorem NewClient_one_call (endpoint token : string) (w : World) :
  snd (NewClient endpoint token w) =
  match url_Parse (endpoint +:+ "/account/default") with
  | Some _ => w
  | None =>
    w ++ [(http.zero,
           {| http.Method := "GET";
              http.URL := endpoint +:+ "/account/default";
              http.Header := [("accept", "application/json");
                              ("Authorization", "Bearer " +:+ token)] |})]
  end.
Proof.
  rewrite NewClient_eq. cbv zeta.
  set (c0 := {| Client_token := token |}).
  pose proof (Get_world c0 "/account/default" UserAccount_zero w) as Hw.
  now destruct (Get c0 _ _ _) as [[r [e|]] w'].
Qed.

(** *** Paths *)





End ApiClient.

(** ** The package on the test doubles *)

Local Abbreviation run_Get srv decoder :=
  (@Get Mock.url_Parse (Mock.RoundTrip srv) _ decoder).
Local Abbreviation run_NewClient srv :=
  (NewClient Mock.url_Parse (Mock.RoundTrip srv)
     (Unmarshal_UserAccount := Mock.Decode_UserAccount)).
Local Abbreviation run_ListCloudProviders srv :=
  (ListCloudProviders Mock.url_Parse (Mock.RoundTrip srv)
     (Unmarshal_CloudProviders := Mock.Decode_CloudProviders)).
Local Abbreviation run_ListCloudProviderRegions srv :=
  (ListCloudProviderRegions Mock.url_Parse (Mock.RoundTrip srv)
     (Unmarshal_CloudProviderRegions := Mock.Decode_CloudProviderRegions)).
Local Abbreviation run_ListClusters srv :=
  (ListClusters Mock.url_Parse (Mock.RoundTrip srv) Mock.Sprintf_v
     (Unmarshal_Items := Mock.Decode_Items)).

Local Ltac answered :=
  split; [vm_compute; reflexivity
         | eexists; split; [vm_compute; reflexivity | split; reflexivity]].

(** A 503 with an HTML body is a status error that quotes the body; a 200
    goes to the decoder. *)
Lemma Get_status_check_witness :
  fst (run_Get Mock.maintenance Mock.Decode_UserAccount
         Mock.client "/account/default" UserAccount_zero [])
  = (UserAccount_zero,
     Some (errors_New "HTTP request to 'https://mock.test/api/v0/account/default' failed with code 503: <html>maintenance</html>"))
  /\ fst (run_Get (Mock.server (Mock.ok 200 Mock.clusters_json))
            Mock.Decode_UserAccount
            Mock.client "/account/default" UserAccount_zero [])
     = (Mock.account_42, None).
Proof.
  split.
  - destruct (Get_status_check Mock.url_Parse (Mock.RoundTrip Mock.maintenance)
                (H := Mock.Decode_UserAccount) Mock.client "/account/default"
                UserAccount_zero [] 503 "<html>maintenance</html>") as [Hout _].
    + answered.
    + destruct Hout as (msg & E & -> & _); [right; lia | exact E].
  - destruct (Get_status_check Mock.url_Parse
                (Mock.RoundTrip (Mock.server (Mock.ok 200 Mock.clusters_json)))
                (H := Mock.Decode_UserAccount) Mock.client "/account/default"
                UserAccount_zero [] 200 Mock.account_json) as [_ Hin].
    + answered.
    + apply Hin. lia.
Defined.

(** Item 2 of 3 has an error: no cluster comes back. *)
Lemma ListClusters_item_error_witness :
  exists item,
    item ∈ Mock.items_one_error /\ Item_Error item <> any_nil /\
    fst (run_ListClusters (Mock.server (Mock.ok 200 Mock.clusters_one_error_json))
           Mock.client [])
    = (None, Some (errors_New ("cluster error: " +:+ Mock.Sprintf_v (Item_Error item)))).
Proof.
  apply (ListClusters_item_error Mock.url_Parse
           (Mock.RoundTrip (Mock.server (Mock.ok 200 Mock.clusters_one_error_json)))
           Mock.Sprintf_v (Unmarshal_Items := Mock.Decode_Items)
           Mock.client [] (Some Mock.items_one_error)).
  - exists 200, Mock.clusters_one_error_json.
    split; [answered | split; [lia | reflexivity]].
  - exists (Mock.failed (any_string "cluster 2 is gone")).
    split; [right; left | discriminate].
Defined.

(** Three values come back as three clusters, in the order of the answer. *)
Lemma ListClusters_all_values_witness :
  exists clusters : list Cluster,
    fst (run_ListClusters (Mock.server (Mock.ok 200 Mock.clusters_json)) Mock.client [])
    = (Some clusters, None) /\
    clusters = [Mock.cluster 1; Mock.cluster 2; Mock.cluster 3] /\
    length clusters = 3%nat /\
    forall i : nat, clusters !! i = Item_Value <$> (Mock.items !! i).
Proof.
  apply (ListClusters_all_values Mock.url_Parse
           (Mock.RoundTrip (Mock.server (Mock.ok 200 Mock.clusters_json)))
           Mock.Sprintf_v (Unmarshal_Items := Mock.Decode_Items)
           Mock.client [] (Some Mock.items)).
  - exists 200, Mock.clusters_json.
    split; [answered | split; [lia | reflexivity]].
  - intros item Hin. cbn in Hin. unfold Mock.items in Hin.
    repeat (apply elem_of_cons in Hin as [->|Hin]; [reflexivity|]).
    inversion Hin.
Defined.

(** Items 2 and 3 of 3 have an error: the error returned is that of item 2. *)
Lemma ListClusters_first_error_witness :
  fst (run_ListClusters (Mock.server (Mock.ok 200 Mock.clusters_two_errors_json))
         Mock.client [])
  = (None, Some (errors_New "cluster error: 9007199254740993")).
Proof.
  apply (ListClusters_first_error Mock.url_Parse
           (Mock.RoundTrip (Mock.server (Mock.ok 200 Mock.clusters_two_errors_json)))
           Mock.Sprintf_v (Unmarshal_Items := Mock.Decode_Items)
           Mock.client [] (Some Mock.items_two_errors) 1%nat
           (Mock.failed (any_Number "9007199254740993"))).
  - exists 200, Mock.clusters_two_errors_json.
    split; [answered | split; [lia | reflexivity]].
  - reflexivity.
  - discriminate.
  - intros j x Hj. destruct j as [|j]; [|lia]. cbn. now intros [= <-].
Defined.

(** An HTML page under a status 200 is a decoder error for each accessor. *)
Lemma decode_error_is_not_status_error_witness :
  fst (run_ListCloudProviders Mock.maintenance Mock.client [])
  = (None, Some (json_error Mock.syntax_error)) /\
  fst (run_ListCloudProviderRegions Mock.maintenance Mock.client 1 [])
  = (None, Some (json_error Mock.syntax_error)) /\
  fst (run_ListClusters Mock.maintenance Mock.client [])
  = (None, Some (json_error Mock.syntax_error)).
Proof.
  destruct (decode_error_is_not_status_error Mock.url_Parse
              (Mock.RoundTrip Mock.maintenance) Mock.Sprintf_v
              (Unmarshal_CloudProviders := Mock.Decode_CloudProviders)
              (Unmarshal_CloudProviderRegions := Mock.Decode_CloudProviderRegions)
              (Unmarshal_Items := Mock.Decode_Items)
              Mock.client [] 1) as (_ & Hp & Hr & Hc & _).
  split; [|split]; [apply Hp | apply Hr | apply Hc];
    (exists 200, "<html>maintenance</html>", None;
     split; [answered | split; [lia | reflexivity]]).
Defined.

(** A 503 on /account/default: no client. *)
Lemma NewClient_bootstrap_failure_witness :
  run_NewClient Mock.maintenance Mock.endpoint "t0k3n" []
  = ((None,
      Some (errors_New "HTTP request to 'https://mock.test/api/v0/account/default' failed with code 503: <html>maintenance</html>")),
     [(http.zero, Get_request Mock.client "/account/default")]).
Proof.
  apply (NewClient_bootstrap_failure Mock.url_Parse (Mock.RoundTrip Mock.maintenance)
           (Unmarshal_UserAccount := Mock.Decode_UserAccount)
           Mock.endpoint "t0k3n" Mock.client [] _ UserAccount_zero).
  - reflexivity.
  - reflexivity.
  - vm_compute. reflexivity.
Defined.

(** Account 42: the cluster listing goes to /account/42/cluster. *)
Lemma ListClusters_targets_account_witness :
  exists c : Client,
    run_NewClient (Mock.server (Mock.ok 200 Mock.clusters_json)) Mock.endpoint "t0k3n" []
    = ((Some c, None), [(http.zero, Get_request Mock.client "/account/default")]) /\
    forall w2 : World,
    exists req,
      snd (run_ListClusters (Mock.server (Mock.ok 200 Mock.clusters_json)) c w2)
      = w2 ++ [(http.zero, req)] /\
      http.Method req = "GET" /\
      http.URL req = "https://mock.test/api/v0/account/42/cluster".
Proof.
  destruct (ListClusters_targets_account Mock.url_Parse
              (Mock.RoundTrip (Mock.server (Mock.ok 200 Mock.clusters_json)))
              Mock.Sprintf_v
              (Unmarshal_UserAccount := Mock.Decode_UserAccount)
              (Unmarshal_Items := Mock.Decode_Items)
              Mock.endpoint "t0k3n" Mock.client []
              [(http.zero, Get_request Mock.client "/account/default")]
              Mock.account_42) as (c & Hn & Hl).
  - reflexivity.
  - reflexivity.
  - vm_compute. reflexivity.
  - exists c. split; [exact Hn|]. intros w2. exact (Hl w2).
Defined.

(** Four calls that fail: none of them returns a value. *)
Lemma error_excludes_value_witness :
  fst (fst (run_ListCloudProviders Mock.mistyped_server Mock.client [])) = None /\
  fst (fst (run_ListCloudProviderRegions Mock.maintenance Mock.client 1 [])) = None /\
  fst (fst (run_ListClusters (Mock.server (Mock.ok 200 Mock.clusters_one_error_json))
              Mock.client [])) = None /\
  fst (fst (run_NewClient Mock.maintenance Mock.endpoint "t0k3n" [])) = None.
Proof.
  destruct (error_excludes_value Mock.url_Parse (Mock.RoundTrip Mock.mistyped_server)
              Mock.Sprintf_v
              (Unmarshal_UserAccount := Mock.Decode_UserAccount)
              (Unmarshal_CloudProviders := Mock.Decode_CloudProviders)
              (Unmarshal_CloudProviderRegions := Mock.Decode_CloudProviderRegions)
              (Unmarshal_Items := Mock.Decode_Items)
              Mock.client 1 Mock.endpoint "t0k3n" []) as (Hp & _).
  destruct (error_excludes_value Mock.url_Parse (Mock.RoundTrip Mock.maintenance)
              Mock.Sprintf_v
              (Unmarshal_UserAccount := Mock.Decode_UserAccount)
              (Unmarshal_CloudProviders := Mock.Decode_CloudProviders)
              (Unmarshal_CloudProviderRegions := Mock.Decode_CloudProviderRegions)
              (Unmarshal_Items := Mock.Decode_Items)
              Mock.client 1 Mock.endpoint "t0k3n" []) as (_ & Hr & _ & Hn).
  destruct (error_excludes_value Mock.url_Parse
              (Mock.RoundTrip (Mock.server (Mock.ok 200 Mock.clusters_one_error_json)))
              Mock.Sprintf_v
              (Unmarshal_UserAccount := Mock.Decode_UserAccount)
              (Unmarshal_CloudProviders := Mock.Decode_CloudProviders)
              (Unmarshal_CloudProviderRegions := Mock.Decode_CloudProviderRegions)
              (Unmarshal_Items := Mock.Decode_Items)
              Mock.client 1 Mock.endpoint "t0k3n" []) as (_ & _ & Hc & _).
  split; [|split; [|split]];
    [apply Hp | apply Hr | apply Hc | apply Hn]; vm_compute; discriminate.
Defined.

(** C3.  [Get] does not run its request on the HTTP client held in the
    field [Client], nor under the time limit held in [Timeout]: it builds a
    zero [http.Client], which has no round tripper and no time limit of its
    own.  Here the provider listing takes 90 seconds.  Run by the HTTP
    client set on the client (5 seconds) the request ends in an error whose
    [Timeout()] is true, and 90 seconds is beyond the 60 seconds of the
    client's [Timeout]; [ListCloudProviders] all the same returns the
    listing, and the call it made names the zero [http.Client]. *)
Example ListCloudProviders_outlives_Timeout :
  let c := Mock.tuned_client in
  let req := Get_request c "/deployment/provider" in
  Client_Client c = {| http.Transport := Some 1%nat; http.Timeout := 5 * Second |} /\
  Client_Timeout c = 60 * Second /\
  Mock.RoundTrip Mock.slow_server [] (Client_Client c) req
  = inr Mock.deadline_exceeded /\
  ne_timeout Mock.deadline_exceeded = true /\
  Mock.RoundTrip Mock.slow_server []
    {| http.Transport := None; http.Timeout := Client_Timeout c |} req
  = inr Mock.deadline_exceeded /\
  run_ListCloudProviders Mock.slow_server c []
  = ((Some [Mock.provider 1; Mock.provider 2], None), [(http.zero, req)]) /\
  http.zero <> Client_Client c.
Proof.
  cbv zeta. repeat split; try (vm_compute; reflexivity). discriminate.
Qed.

(** ** More runs on the test doubles *)

Lemma Get_sends_authenticated_request_witness :
  exists req,
    snd (run_Get Mock.unreachable Mock.Decode_CloudProviders
           Mock.client "/deployment/provider" None [])
    = [(http.zero, req)] /\
    http.Method req = "GET" /\
    http.URL req = "https://mock.test/api/v0/deployment/provider" /\
    http.Header req = [("accept", "application/json");
                       ("Authorization", "Bearer t0k3n")].
Proof.
  apply (Get_sends_authenticated_request Mock.url_Parse
           (Mock.RoundTrip Mock.unreachable) (H := Mock.Decode_CloudProviders)
           Mock.client "/deployment/provider" None []).
  vm_compute. reflexivity.
Defined.

Lemma Get_refused_url_witness :
  run_Get Mock.unreachable Mock.Decode_CloudProviders
    Mock.broken_client "/deployment/provider" None []
  = ((None,
      Some (net_error {| ne_text := "net/url: invalid control character in URL";
                         ne_timeout := false |})),
     []).
Proof.
  apply (Get_refused_url Mock.url_Parse (Mock.RoundTrip Mock.unreachable)
           (H := Mock.Decode_CloudProviders)).
  vm_compute. reflexivity.
Defined.

Lemma Get_transport_error_witness :
  run_Get Mock.unreachable Mock.Decode_CloudProviders
    Mock.client "/deployment/provider" None []
  = ((None, Some (net_error Mock.connection_refused)),
     [(http.zero, Get_request Mock.client "/deployment/provider")]).
Proof.
  apply (Get_transport_error Mock.url_Parse (Mock.RoundTrip Mock.unreachable)
           (H := Mock.Decode_CloudProviders)
           Mock.client "/deployment/provider" None [] Mock.connection_refused);
    vm_compute; reflexivity.
Defined.

Lemma Get_read_error_first_witness :
  run_Get Mock.truncated Mock.Decode_CloudProviders
    Mock.client "/deployment/provider" None []
  = ((None, Some (io_error "unexpected EOF")),
     [(http.zero, Get_request Mock.client "/deployment/provider")]).
Proof.
  apply (Get_read_error_first Mock.url_Parse (Mock.RoundTrip Mock.truncated)
           (H := Mock.Decode_CloudProviders)
           Mock.client "/deployment/provider" None []
           {| http.StatusCode := 500;
              http.Body := {| http.content := "<ht";
                              http.read_err := Some "unexpected EOF" |} |}
           "unexpected EOF");
    vm_compute; reflexivity.
Defined.

Lemma Get_success_inv_witness :
  Mock.url_Parse "https://mock.test/api/v0/account/default" = None /\
  exists res,
    Mock.RoundTrip (Mock.server (Mock.ok 200 Mock.clusters_json)) [] http.zero
      (Get_request Mock.client "/account/default") = inl res /\
    http.read_err (http.Body res) = None /\
    200 <= http.StatusCode res < 300 /\
    Mock.Decode_UserAccount
      (UseNumber (json_NewDecoder (http.content (http.Body res)))) UserAccount_zero
    = (Mock.account_42, None) /\
    [(http.zero, Get_request Mock.client "/account/default")]
    = [] ++ [(http.zero, Get_request Mock.client "/account/default")].
Proof.
  apply (Get_success_inv Mock.url_Parse
           (Mock.RoundTrip (Mock.server (Mock.ok 200 Mock.clusters_json)))
           (H := Mock.Decode_UserAccount)
           Mock.client "/account/default" UserAccount_zero Mock.account_42 []
           [(http.zero, Get_request Mock.client "/account/default")]).
  vm_compute. reflexivity.
Defined.

(** A 503 met while refreshing an account leaves the account as it was. *)
Lemma Get_error_keeps_destination_witness :
  fst (fst (run_Get Mock.maintenance Mock.Decode_UserAccount
              Mock.client "/account/default" Mock.account_42 []))
  = Mock.account_42.
Proof.
  apply (Get_error_keeps_destination Mock.url_Parse (Mock.RoundTrip Mock.maintenance)
           (H := Mock.Decode_UserAccount)
           Mock.client "/account/default" Mock.account_42 []).
  - vm_compute. discriminate.
  - intros text. vm_compute. discriminate.
Defined.

Lemma Get_always_UseNumber_witness :
  run_Get (Mock.server (Mock.ok 200 Mock.clusters_json)) Mock.Decode_UserAccount
    Mock.client "/account/default" UserAccount_zero []
  = run_Get (Mock.server (Mock.ok 200 Mock.clusters_json)) Mock.Decode_UserAccount_strict
      Mock.client "/account/default" UserAccount_zero [].
Proof.
  apply (Get_always_UseNumber Mock.url_Parse
           (Mock.RoundTrip (Mock.server (Mock.ok 200 Mock.clusters_json)))
           Mock.Decode_UserAccount Mock.Decode_UserAccount_strict).
  intros body d. reflexivity.
Defined.

(** A decoder that would take any body is not asked on a 503. *)
Lemma Get_status_error_any_decoder_witness :
  run_Get Mock.maintenance Mock.Decode_UserAccount
    Mock.client "/account/default" UserAccount_zero []
  = run_Get Mock.maintenance (fun _ _ => (Mock.account_42, None))
      Mock.client "/account/default" UserAccount_zero [].
Proof.
  apply (Get_status_error_any_decoder Mock.url_Parse (Mock.RoundTrip Mock.maintenance)
           Mock.Decode_UserAccount (fun _ _ => (Mock.account_42, None))
           Mock.client "/account/default" UserAccount_zero []
           503 "<html>maintenance</html>").
  - answered.
  - right. lia.
Defined.

(** A listing that is the JSON value null comes back as a nil slice with a
    nil error. *)
Lemma provider_listings_pass_through_witness :
  fst (ListCloudProviders Mock.url_Parse (Mock.RoundTrip Mock.null_server)
         (Unmarshal_CloudProviders := Mock.Decode_CloudProviders_null) Mock.client [])
  = (None, None) /\
  fst (run_ListCloudProviderRegions
         (Mock.server (Mock.ok 200 Mock.clusters_json)) Mock.client 1 [])
  = (Some [Mock.region 7], None).
Proof.
  split.
  - destruct (provider_listings_pass_through Mock.url_Parse
                (Mock.RoundTrip Mock.null_server)
                (Unmarshal_CloudProviders := Mock.Decode_CloudProviders_null)
                (Unmarshal_CloudProviderRegions := Mock.Decode_CloudProviderRegions_null)
                Mock.client 1 []) as [Hp _].
    apply (Hp 200 "null"); [answered | lia | reflexivity].
  - destruct (provider_listings_pass_through Mock.url_Parse
                (Mock.RoundTrip (Mock.server (Mock.ok 200 Mock.clusters_json)))
                (Unmarshal_CloudProviders := Mock.Decode_CloudProviders)
                (Unmarshal_CloudProviderRegions := Mock.Decode_CloudProviderRegions)
                Mock.client 1 []) as [_ Hr].
    apply (Hr 200 Mock.regions_json); [answered | lia | reflexivity].
Defined.

(** A server with no resource at all answers 404 to everything. *)
Lemma accessors_status_error_witness :
  fst (run_ListCloudProviders [] Mock.client [])
  = (None, Some (errors_New "HTTP request to 'https://mock.test/api/v0/deployment/provider' failed with code 404: 404 page not found")) /\
  fst (run_ListCloudProviderRegions [] Mock.client 1 [])
  = (None, Some (errors_New "HTTP request to 'https://mock.test/api/v0/deployment/provider/1/region' failed with code 404: 404 page not found")) /\
  fst (run_ListClusters [] Mock.client [])
  = (None, Some (errors_New "HTTP request to 'https://mock.test/api/v0/account/42/cluster' failed with code 404: 404 page not found")) /\
  fst (run_NewClient [] Mock.endpoint "t0k3n" [])
  = (None, Some (errors_New "HTTP request to 'https://mock.test/api/v0/account/default' failed with code 404: 404 page not found")).
Proof.
  destruct (accessors_status_error Mock.url_Parse (Mock.RoundTrip []) Mock.Sprintf_v
              (Unmarshal_UserAccount := Mock.Decode_UserAccount)
              (Unmarshal_CloudProviders := Mock.Decode_CloudProviders)
              (Unmarshal_CloudProviderRegions := Mock.Decode_CloudProviderRegions)
              (Unmarshal_Items := Mock.Decode_Items)
              Mock.client 1 Mock.endpoint "t0k3n" [] 404 "404 page not found")
    as (Hp & Hr & Hc & Hn).
  - right. lia.
  - split; [|split; [|split]].
    + apply Hp. answered.
    + apply Hr. answered.
    + apply Hc. answered.
    + apply Hn; [reflexivity | reflexivity | answered].
Defined.

(** Setting the exported field [Client] changes nothing. *)
Lemma accessors_read_three_fields_witness :
  run_ListCloudProviders Mock.slow_server Mock.client []
  = run_ListCloudProviders Mock.slow_server Mock.tuned_client [] /\
  run_ListCloudProviderRegions Mock.slow_server Mock.client 1 []
  = run_ListCloudProviderRegions Mock.slow_server Mock.tuned_client 1 [] /\
  run_ListClusters Mock.slow_server Mock.client []
  = run_ListClusters Mock.slow_server Mock.tuned_client [].
Proof.
  destruct (accessors_read_three_fields Mock.url_Parse (Mock.RoundTrip Mock.slow_server)
              Mock.Sprintf_v
              (Unmarshal_CloudProviders := Mock.Decode_CloudProviders)
              (Unmarshal_CloudProviderRegions := Mock.Decode_CloudProviderRegions)
              (Unmarshal_Items := Mock.Decode_Items)
              Mock.client Mock.tuned_client 1 []) as (Hp & Hr & Hc).
  - reflexivity.
  - reflexivity.
  - split; [exact Hp | split; [exact Hr | apply Hc; reflexivity]].
Defined.

(** A cluster listing that is the JSON value null: an empty slice. *)
Lemma ListClusters_empty_witness :
  fst (ListClusters Mock.url_Parse (Mock.RoundTrip Mock.null_server) Mock.Sprintf_v
         (Unmarshal_Items := Mock.Decode_Items_null) Mock.client [])
  = (Some [], None).
Proof.
  apply (ListClusters_empty Mock.url_Parse (Mock.RoundTrip Mock.null_server)
           Mock.Sprintf_v (Unmarshal_Items := Mock.Decode_Items_null)
           Mock.client [] None).
  - exists 200, "null". split; [answered | split; [lia | reflexivity]].
  - reflexivity.
Defined.


